(** * PoET block verifier

    A shallow embedding of [PoetBlockVerifier.verify_block]
    (sawtooth_poet/poet_consensus/poet_block_verifier.py) together with the
    properties of its accept/reject decision.

    Python exceptions are modelled by an outcome type, log records by a list
    that is threaded through every call next to the verifier object, and the
    objects the verifier is handed (state view factory, enclave factory,
    validator registry view, the helpers of [utils], the wait certificate)
    by a record of operations that may return, raise, and touch the world. *)

From stdpp Require Import base strings list gmap.

(** ** Exceptions and outcomes *)

(** The class of a raised exception, as far as an [except] clause can tell:
    [KeyError] and [ValueError] stand for the class or any subclass of it,
    [OtherError] for every class that neither clause of the source catches. *)
Inductive ExcClass := KeyError | ValueError | AttributeError | OtherError.

Record PyExc := mkExc { exc_class : ExcClass; exc_str : string }.

Inductive Outcome (A : Type) :=
| Returns (a : A)
| Raises (e : PyExc).
Arguments Returns {A} a.
Arguments Raises {A} e.

#[global] Instance ExcClass_eq_dec : EqDecision ExcClass.
Proof. solve_decision. Defined.

(** ** Log records *)

Inductive Level := DEBUG | WARNING | ERROR.

Record LogRecord := mkLog {
  levelname : Level;
  msg : string;
  args : list string
}.

(** ** Blocks *)

Module BlockHeader.
Record t := mk {
  previous_block_id : string;
  signer_pubkey : string;
  consensus : string
}.
End BlockHeader.

Record BlockWrapper := mkBlockWrapper {
  identifier : string;
  previous_block_id : string;
  state_root_hash : string;
  header : BlockHeader.t
}.

(** ** Validator registry entries *)

Record SignUpInfo := mkSignUpInfo { poet_public_key : string }.

Record ValidatorInfo := mkValidatorInfo {
  name : string;
  id : string;
  signup_info : SignUpInfo
}.

(** Python slices [s[:8]] and [s[-8:]] on strings; neither raises. *)
Definition slice_to (n : nat) (s : string) : string :=
  String.substring 0 n s.

Definition slice_last (n : nat) (s : string) : string :=
  String.substring (String.length s - n) n s.

(** What the [try] suite of [verify_block] hands on: either control falls
    through to the statement after it, or a [return] was executed. *)
Inductive Flow := Next | Return (b : bool).

Section Verifier.

(** The objects of other modules are opaque here. *)
Variables StateViewFactory StateView PoetEnclaveModule : Type.
Variables ValidatorRegistryView WaitCertificate : Type.

(** ** The verifier object and the world *)

Record PoetBlockVerifier := mkVerifier {
  _block_cache : gmap string BlockWrapper;
  _state_view_factory : StateViewFactory;
  _data_dir : string
}.

Record World := mkWorld {
  this : PoetBlockVerifier;
  records : list LogRecord
}.

(** ** State and exception monad *)

Definition M (A : Type) : Type := World -> Outcome A * World.

#[global] Instance M_ret : MRet M := fun A a w => (Returns a, w).

#[global] Instance M_bind : MBind M := fun A B f m w =>
  match m w with
  | (Returns a, w') => f a w'
  | (Raises e, w') => (Raises e, w')
  end.

Definition raise {A} (e : PyExc) : M A := fun w => (Raises e, w).

(** [try: body except ...: handler]; [handlers e = None] when no clause
    matches [e], which then propagates. *)
Definition try_except {A} (body : M A) (handlers : PyExc -> option (M A))
  : M A := fun w =>
  match body w with
  | (Returns a, w') => (Returns a, w')
  | (Raises e, w') =>
      match handlers e with
      | Some h => h w'
      | None => (Raises e, w')
      end
  end.

Definition self : M PoetBlockVerifier := fun w => (Returns (this w), w).

Definition LOGGER (lvl : Level) (fmt : string) (a : list string) : M unit :=
  fun w => (Returns tt,
            {| this := this w; records := records w ++ [mkLog lvl fmt a] |}).

(** [d[k]] on a dict. *)
Definition getitem {V} (d : gmap string V) (k : string) : M V :=
  match d !! k with
  | Some v => mret v
  | None => raise (mkExc KeyError k)
  end.

(** Calling a method on the result of a call that may have returned
    [None]. *)
Definition attr_of {A} (o : option A) (attr : string) : M A :=
  match o with
  | Some a => mret a
  | None =>
      raise (mkExc AttributeError
               ("'NoneType' object has no attribute '" +:+ attr +:+ "'"))
  end.

(** ** Collaborators *)

Record Env := mkEnv {
  (* self._state_view_factory.create_view(state_root_hash) *)
  create_view : StateViewFactory -> string -> M StateView;
  (* factory.PoetEnclaveFactory.get_poet_enclave_module(state_view) *)
  get_poet_enclave_module : StateView -> M PoetEnclaveModule;
  (* ValidatorRegistryView(state_view) *)
  new_ValidatorRegistryView : StateView -> M ValidatorRegistryView;
  get_validators : ValidatorRegistryView -> M (list ValidatorInfo);
  get_validator_info : ValidatorRegistryView -> string -> M ValidatorInfo;
  (* utils.build_certificate_list(block_header, block_cache,
                                  poet_enclave_module, maximum_number) *)
  build_certificate_list :
    BlockHeader.t -> gmap string BlockWrapper -> PoetEnclaveModule -> nat ->
    M (list WaitCertificate);
  (* utils.deserialize_wait_certificate(block, poet_enclave_module) *)
  deserialize_wait_certificate :
    BlockWrapper -> PoetEnclaveModule -> M (option WaitCertificate);
  (* wait_certificate.check_valid(poet_enclave_module, certificates,
                                  poet_public_key) *)
  check_valid :
    WaitCertificate -> PoetEnclaveModule -> list WaitCertificate -> string ->
    M unit;
  (* WaitTimer.certificate_sample_length *)
  certificate_sample_length : nat
}.

Variable E : Env.

(** ** verify_block *)

(** The [LOGGER.debug] call of lines 100-107. *)
Definition debug_block_signer (validator_info : ValidatorInfo) : M unit :=
  LOGGER DEBUG
    "Block Signer Name=%s, ID=%s...%s, PoET public key=%s...%s"
    [ name validator_info;
      slice_to 8 (id validator_info);
      slice_last 8 (id validator_info);
      slice_to 8 (poet_public_key (signup_info validator_info));
      slice_last 8 (poet_public_key (signup_info validator_info)) ].

(** The suite of the [try] statement, lines 94-129. *)
Definition verification_attempt
    (block_wrapper : BlockWrapper)
    (poet_enclave_module : PoetEnclaveModule)
    (validator_registry_view : ValidatorRegistryView) : M Flow :=
  validator_info ←
    get_validator_info E validator_registry_view
      (BlockHeader.signer_pubkey (header block_wrapper));
  debug_block_signer validator_info;;
  s ← self;
  certificates ←
    build_certificate_list E
      (header block_wrapper)
      (_block_cache s)
      poet_enclave_module
      (certificate_sample_length E);
  r ← deserialize_wait_certificate E block_wrapper poet_enclave_module;
  wait_certificate ← attr_of r "check_valid";
  check_valid E wait_certificate
    poet_enclave_module
    certificates
    (poet_public_key (signup_info validator_info));;
  mret Next.

(** The [except] clauses, lines 130-137. *)
Definition verification_handlers (e : PyExc) : option (M Flow) :=
  match exc_class e with
  | KeyError =>
      Some (LOGGER ERROR
              "Attempted to verify block from validator with no validator registry entry"
              [];;
            mret (Return false))
  | ValueError =>
      Some (LOGGER ERROR "Wait certificate is not valid: %s" [exc_str e];;
            LOGGER WARNING "We will accept for now" [];;
            mret Next)
  | _ => None
  end.

(** Lines 71-76. *)
Definition lookup_previous_block (block_wrapper : BlockWrapper)
  : M (option BlockWrapper) :=
  try_except
    (s ← self;
     b ← getitem (_block_cache s) (previous_block_id block_wrapper);
     mret (Some b))
    (fun e =>
       match exc_class e with
       | KeyError => Some (mret None)
       | _ => None
       end).

Definition verify_block (block_wrapper : BlockWrapper) : M bool :=
  previous_block ← lookup_previous_block block_wrapper;
  let state_root_hash :=
    match previous_block with
    | Some previous_block => state_root_hash previous_block
    | None => state_root_hash block_wrapper
    end in
  s ← self;
  state_view ← create_view E (_state_view_factory s) state_root_hash;
  poet_enclave_module ← get_poet_enclave_module E state_view;
  validator_registry_view ← new_ValidatorRegistryView E state_view;
  validators ← get_validators E validator_registry_view;
  flow ←
    (if bool_decide (0 < length validators) then
       try_except
         (verification_attempt block_wrapper poet_enclave_module
            validator_registry_view)
         verification_handlers
     else
       LOGGER WARNING
         "Block accepted by default because no validators registered" [];;
       mret Next);
  match flow with
  | Return b => mret b
  | Next => mret true
  end.

(** ** Reading a run of [verify_block] *)

(** The state root that sections 4.1 (step 2) and 8 of the specification
    prescribe for the verification context. *)
Definition spec_state_root (w : World) (block_wrapper : BlockWrapper)
  : string :=
  match _block_cache (this w) !! previous_block_id block_wrapper with
  | Some previous => state_root_hash previous
  | None => state_root_hash block_wrapper
  end.

(** Lines 86-92 ran to completion from world [w]: the state view, the
    enclave module and the registry view were obtained, and the registry
    answered with [validators], leaving world [w']. *)
Definition resolves (block_wrapper : BlockWrapper) (w : World)
    (poet_enclave_module : PoetEnclaveModule)
    (validator_registry_view : ValidatorRegistryView)
    (validators : list ValidatorInfo) (w' : World) : Prop :=
  ∃ state_view w1 w2 w3,
    create_view E (_state_view_factory (this w))
      (spec_state_root w block_wrapper) w = (Returns state_view, w1) ∧
    get_poet_enclave_module E state_view w1
      = (Returns poet_enclave_module, w2) ∧
    new_ValidatorRegistryView E state_view w2
      = (Returns validator_registry_view, w3) ∧
    get_validators E validator_registry_view w3 = (Returns validators, w').

(** One of the calls of lines 86-92 raised [e]. *)
Inductive context_fails (block_wrapper : BlockWrapper) (w : World)
    (e : PyExc) (w' : World) : Prop :=
| fails_create_view :
    create_view E (_state_view_factory (this w))
      (spec_state_root w block_wrapper) w = (Raises e, w') →
    context_fails block_wrapper w e w'
| fails_enclave_module state_view w1 :
    create_view E (_state_view_factory (this w))
      (spec_state_root w block_wrapper) w = (Returns state_view, w1) →
    get_poet_enclave_module E state_view w1 = (Raises e, w') →
    context_fails block_wrapper w e w'
| fails_registry_view state_view w1 pem w2 :
    create_view E (_state_view_factory (this w))
      (spec_state_root w block_wrapper) w = (Returns state_view, w1) →
    get_poet_enclave_module E state_view w1 = (Returns pem, w2) →
    new_ValidatorRegistryView E state_view w2 = (Raises e, w') →
    context_fails block_wrapper w e w'
| fails_get_validators state_view w1 pem w2 vrv w3 :
    create_view E (_state_view_factory (this w))
      (spec_state_root w block_wrapper) w = (Returns state_view, w1) →
    get_poet_enclave_module E state_view w1 = (Returns pem, w2) →
    new_ValidatorRegistryView E state_view w2 = (Returns vrv, w3) →
    get_validators E vrv w3 = (Raises e, w') →
    context_fails block_wrapper w e w'.

(** The calls made inside the [try] suite, in order. *)
Inductive Stage :=
| RegistryLookup    (* get_validator_info, lines 96-98 *)
| HistoryBuilding   (* build_certificate_list, lines 113-118 *)
| Deserialization   (* deserialize_wait_certificate, lines 122-125 *)
| Validation.       (* check_valid, lines 126-129 *)

(** Started in world [w], the suite reached the call of stage [st], every
    earlier call having returned, and that call raised [e]. *)
Definition raised_at (st : Stage) (block_wrapper : BlockWrapper)
    (pem : PoetEnclaveModule) (vrv : ValidatorRegistryView)
    (w : World) (e : PyExc) (w' : World) : Prop :=
  let signer := BlockHeader.signer_pubkey (header block_wrapper) in
  let history vi w1 :=
    let w2 := (debug_block_signer vi w1).2 in
    build_certificate_list E (header block_wrapper)
      (_block_cache (this w2)) pem (certificate_sample_length E) w2 in
  match st with
  | RegistryLookup =>
      get_validator_info E vrv signer w = (Raises e, w')
  | HistoryBuilding =>
      ∃ vi w1,
        get_validator_info E vrv signer w = (Returns vi, w1) ∧
        history vi w1 = (Raises e, w')
  | Deserialization =>
      ∃ vi w1 certificates w3,
        get_validator_info E vrv signer w = (Returns vi, w1) ∧
        history vi w1 = (Returns certificates, w3) ∧
        deserialize_wait_certificate E block_wrapper pem w3 = (Raises e, w')
  | Validation =>
      ∃ vi w1 certificates w3 wait_certificate w4,
        get_validator_info E vrv signer w = (Returns vi, w1) ∧
        history vi w1 = (Returns certificates, w3) ∧
        deserialize_wait_certificate E block_wrapper pem w3
          = (Returns (Some wait_certificate), w4) ∧
        check_valid E wait_certificate pem certificates
          (poet_public_key (signup_info vi)) w4 = (Raises e, w')
  end.

(** The exceptions that leave [verify_block]: those of the calls made
    before the [try] statement, and those raised inside the suite that no
    [except] clause matches. *)
Inductive propagates (block_wrapper : BlockWrapper) (w : World)
    (e : PyExc) : Prop :=
| propagates_context w' :
    context_fails block_wrapper w e w' →
    propagates block_wrapper w e
| propagates_attempt pem vrv validators w1 w2 :
    resolves block_wrapper w pem vrv validators w1 →
    0 < length validators →
    verification_attempt block_wrapper pem vrv w1 = (Raises e, w2) →
    exc_class e ≠ KeyError →
    exc_class e ≠ ValueError →
    propagates block_wrapper w e.

(** ** Frames *)

(** A computation that leaves the verifier object (its three fields, the
    block cache among them) as it found it and only appends log records. *)
Definition only_logs {A} (m : M A) : Prop :=
  ∀ w, this (m w).2 = this w ∧ ∃ l, records (m w).2 = records w ++ l.

(** Collaborators that honour the read-only contract of the constructor's
    docstring. *)
Record read_only : Prop := mkReadOnly {
  ro_create_view : ∀ f r, only_logs (create_view E f r);
  ro_get_poet_enclave_module : ∀ sv, only_logs (get_poet_enclave_module E sv);
  ro_new_ValidatorRegistryView :
    ∀ sv, only_logs (new_ValidatorRegistryView E sv);
  ro_get_validators : ∀ vrv, only_logs (get_validators E vrv);
  ro_get_validator_info : ∀ vrv k, only_logs (get_validator_info E vrv k);
  ro_build_certificate_list :
    ∀ h c pem n, only_logs (build_certificate_list E h c pem n);
  ro_deserialize_wait_certificate :
    ∀ b pem, only_logs (deserialize_wait_certificate E b pem);
  ro_check_valid : ∀ c pem l k, only_logs (check_valid E c pem l k)
}.

(** ** Varying the state view factory *)

Definition with_create_view
    (cv : StateViewFactory → string → M StateView) : Env :=
  {| create_view := cv;
     get_poet_enclave_module := get_poet_enclave_module E;
     new_ValidatorRegistryView := new_ValidatorRegistryView E;
     get_validators := get_validators E;
     get_validator_info := get_validator_info E;
     build_certificate_list := build_certificate_list E;
     deserialize_wait_certificate := deserialize_wait_certificate E;
     check_valid := check_valid E;
     certificate_sample_length := certificate_sample_length E |}.

(** A factory that behaves as that of [E] except at [root], where it
    raises [e]. *)
Definition failing_at (root : string) (e : PyExc)
  : StateViewFactory → string → M StateView :=
  fun f r => if decide (r = root) then raise e else create_view E f r.

(** ** Certificate history builder *)

(** Modelled from the spec: [utils.build_certificate_list] is not among
    the sources.  Section 4.2: the builder walks the ancestor chain starting
    at the block referenced by [anchor_header.previous_block_id],
    deserializes each ancestor's wait certificate through the attestation
    handle and appends it to the sample, most recent first; it stops when
    [max_count] certificates have been collected, when there is no further
    predecessor, or at a predecessor whose payload holds no certificate. *)
Fixpoint spec_walk_ancestors (block_cache : gmap string BlockWrapper)
    (attestation_handle : PoetEnclaveModule) (max_count : nat)
    (block_id : string) : M (list WaitCertificate) :=
  match max_count with
  | 0 => mret []
  | S remaining =>
      match block_cache !! block_id with
      | None => mret []
      | Some block =>
          r ← deserialize_wait_certificate E block attestation_handle;
          match r with
          | None => mret []
          | Some certificate =>
              older ← spec_walk_ancestors block_cache attestation_handle
                        remaining
                        (BlockHeader.previous_block_id (header block));
              mret (certificate :: older)
          end
      end
  end.

Definition spec_build_certificate_list (anchor_header : BlockHeader.t)
    (block_cache : gmap string BlockWrapper)
    (attestation_handle : PoetEnclaveModule) (max_count : nat)
  : M (list WaitCertificate) :=
  spec_walk_ancestors block_cache attestation_handle max_count
    (BlockHeader.previous_block_id anchor_header).

(** The attestation handle produced [certificate] from the payload of
    [block] in some world. *)
Definition certificate_of (attestation_handle : PoetEnclaveModule)
    (block : BlockWrapper) (certificate : WaitCertificate) : Prop :=
  ∃ w w',
    deserialize_wait_certificate E block attestation_handle w
      = (Returns (Some certificate), w').

End Verifier.

(** The blocks reached from [block_id] by following the header's
    [previous_block_id] through the cache, at most [n] of them. *)
Fixpoint ancestors (block_cache : gmap string BlockWrapper) (n : nat)
    (block_id : string) : list BlockWrapper :=
  match n with
  | 0 => []
  | S n' =>
      match block_cache !! block_id with
      | None => []
      | Some block =>
          block ::
          ancestors block_cache n'
            (BlockHeader.previous_block_id (header block))
      end
  end.

Arguments mkVerifier {StateViewFactory}.
Arguments _block_cache {StateViewFactory}.
Arguments _state_view_factory {StateViewFactory}.
Arguments _data_dir {StateViewFactory}.
Arguments mkWorld {StateViewFactory}.
Arguments this {StateViewFactory}.
Arguments records {StateViewFactory}.
Arguments raise {StateViewFactory A}.
Arguments try_except {StateViewFactory A}.
Arguments self {StateViewFactory}.
Arguments LOGGER {StateViewFactory}.
Arguments getitem {StateViewFactory V}.
Arguments attr_of {StateViewFactory A}.
Arguments debug_block_signer {StateViewFactory}.
Arguments only_logs {StateViewFactory A}.
Arguments mkEnv {StateViewFactory StateView PoetEnclaveModule
                 ValidatorRegistryView WaitCertificate}.
Arguments create_view {_ _ _ _ _}.
Arguments get_poet_enclave_module {_ _ _ _ _}.
Arguments new_ValidatorRegistryView {_ _ _ _ _}.
Arguments get_validators {_ _ _ _ _}.
Arguments get_validator_info {_ _ _ _ _}.
Arguments build_certificate_list {_ _ _ _ _}.
Arguments deserialize_wait_certificate {_ _ _ _ _}.
Arguments check_valid {_ _ _ _ _}.
Arguments certificate_sample_length {_ _ _ _ _}.
Arguments verification_attempt {_ _ _ _ _}.
Arguments verification_handlers {_}.
Arguments lookup_previous_block {_}.
Arguments verify_block {_ _ _ _ _}.
Arguments spec_state_root {_}.
Arguments resolves {_ _ _ _ _}.
Arguments context_fails {_ _ _ _ _}.
Arguments raised_at {_ _ _ _ _}.
Arguments propagates {_ _ _ _ _}.
Arguments read_only {_ _ _ _ _}.
Arguments with_create_view {_ _ _ _ _}.
Arguments failing_at {_ _ _ _ _}.
Arguments spec_walk_ancestors {_ _ _ _ _}.
Arguments spec_build_certificate_list {_ _ _ _ _}.
Arguments certificate_of {_ _ _ _ _}.

(** ** A small ledger to run the verifier on *)

Module Demo.

Definition alice : ValidatorInfo :=
  mkValidatorInfo "alice" "02a1c4e86f0b9d3357" (mkSignUpInfo "poet-alice").

(** Registered validators by state root: nobody at [root0], alice from
    [root1] on. *)
Definition ledger : gmap string (list ValidatorInfo) :=
  <["root1" := [alice]]> {["root0" := []]}.

Definition block (block_id previous root signer payload : string)
  : BlockWrapper :=
  mkBlockWrapper block_id previous root
    (BlockHeader.mk previous signer payload).

Definition b0 : BlockWrapper :=
  block "b0" "0000000000000000" "root1" (id alice) "{poet-alice:0}".
Definition b1 : BlockWrapper :=
  block "b1" "b0" "root1" (id alice) "{poet-alice:1}".

Definition cache : gmap string BlockWrapper :=
  <["b1" := b1]> {["b0" := b0]}.

(** Candidates extending [b1]. *)
Definition good : BlockWrapper :=
  block "b2" "b1" "root1" (id alice) "{poet-alice:2}".
Definition garbled : BlockWrapper :=
  block "b2" "b1" "root1" (id alice) "poet-al".
Definition forged : BlockWrapper :=
  block "b2" "b1" "root1" (id alice) "{poet-mallory:2}".
Definition stranger : BlockWrapper :=
  block "b2" "b1" "root1" "03ffmallory" "{poet-mallory:2}".
Definition blank : BlockWrapper :=
  block "b2" "b1" "root1" (id alice) "".

(** Candidates whose predecessor is not cached. *)
Definition first : BlockWrapper :=
  block "g0" "0000000000000000" "root0" (id alice) "Genesis".
Definition stray : BlockWrapper :=
  block "s9" "s8" "root9" (id alice) "{poet-alice:9}".

Definition verifier : PoetBlockVerifier unit :=
  mkVerifier cache tt "/var/lib/sawtooth".

Definition w0 : World unit := mkWorld verifier [].

Definition deserialize (b : BlockWrapper) (_ : unit)
  : M unit (option string) :=
  let payload := BlockHeader.consensus (header b) in
  if String.eqb payload "" then mret None
  else if String.prefix "{" payload then mret (Some payload)
  else raise (mkExc ValueError "Expecting value: line 1 column 1 (char 0)").

Definition check (certificate : string) (_ : unit)
    (certificates : list string) (poet_public_key : string)
  : M unit unit :=
  if String.prefix ("{" +:+ poet_public_key) certificate then mret tt
  else raise (mkExc ValueError "Wait certificate signature is invalid").

Definition base : Env unit string unit (list ValidatorInfo) string :=
  {| create_view := fun _ root =>
       match ledger !! root with
       | Some _ => mret root
       | None => raise (mkExc OtherError ("no state at " +:+ root))
       end;
     get_poet_enclave_module := fun _ => mret tt;
     new_ValidatorRegistryView := fun root => mret (default [] (ledger !! root));
     get_validators := fun vrv => mret vrv;
     get_validator_info := fun vrv k =>
       match List.find (fun v => String.eqb (id v) k) vrv with
       | Some v => mret v
       | None => raise (mkExc KeyError k)
       end;
     build_certificate_list := fun _ _ _ _ => mret [];
     deserialize_wait_certificate := deserialize;
     check_valid := check;
     certificate_sample_length := 50 |}.

Definition with_builder
    (build : BlockHeader.t → gmap string BlockWrapper → unit → nat →
             M unit (list string))
  : Env unit string unit (list ValidatorInfo) string :=
  {| create_view := create_view base;
     get_poet_enclave_module := get_poet_enclave_module base;
     new_ValidatorRegistryView := new_ValidatorRegistryView base;
     get_validators := get_validators base;
     get_validator_info := get_validator_info base;
     build_certificate_list := build;
     deserialize_wait_certificate := deserialize;
     check_valid := check;
     certificate_sample_length := 50 |}.

(** The collaborators with the history builder of the specification. *)
Definition env : Env unit string unit (list ValidatorInfo) string :=
  with_builder (spec_build_certificate_list base).

(** A history builder that indexes the cache without guarding the
    lookup. *)
Fixpoint unguarded_walk (block_cache : gmap string BlockWrapper)
    (n : nat) (block_id : string) : M unit (list string) :=
  match n with
  | 0 => mret []
  | S n' =>
      b ← getitem block_cache block_id;
      r ← deserialize b tt;
      match r with
      | None => mret []
      | Some c =>
          older ← unguarded_walk block_cache n'
                    (BlockHeader.previous_block_id (header b));
          mret (c :: older)
      end
  end.

Definition unguarded : Env unit string unit (list ValidatorInfo) string :=
  with_builder (fun h c _ n =>
    unguarded_walk c n (BlockHeader.previous_block_id h)).

(** A state view factory that serves [root1] only. *)
Definition only_root1 : unit → string → M unit string := fun _ r =>
  if String.eqb r "root1" then mret r
  else raise (mkExc OtherError "closed").

End Demo.

(** ** The log records of the decision branches *)

Definition accepted_by_default : LogRecord :=
  mkLog WARNING "Block accepted by default because no validators registered" [].

Definition no_registry_entry : LogRecord :=
  mkLog ERROR
    "Attempted to verify block from validator with no validator registry entry"
    [].

Definition not_valid (e : PyExc) : LogRecord :=
  mkLog ERROR "Wait certificate is not valid: %s" [exc_str e].

Definition accept_for_now : LogRecord :=
  mkLog WARNING "We will accept for now" [].

(** The outcome of the [try] statement for an exception [e] raised inside
    its suite in world [w]. *)
Definition handled {F : Type} (e : PyExc) (w : World F)
  : Outcome bool * World F :=
  match exc_class e with
  | KeyError =>
      (Returns false, mkWorld (this w) (records w ++ [no_registry_entry]))
  | ValueError =>
      (Returns true,
       mkWorld (this w) ((records w ++ [not_valid e]) ++ [accept_for_now]))
  | _ => (Raises e, w)
  end.

(** What is left of [verify_block] once the registry has answered
    (lines 92-142). *)
Definition decide_block {F SV PEM VRV WC : Type} (E : Env F SV PEM VRV WC)
    (block_wrapper : BlockWrapper) (pem : PEM) (vrv : VRV)
    (validators : list ValidatorInfo) : M F bool :=
  flow ←
    (if bool_decide (0 < length validators) then
       try_except (verification_attempt E block_wrapper pem vrv)
         verification_handlers
     else
       LOGGER WARNING
         "Block accepted by default because no validators registered" [];;
       mret Next);
  match flow with
  | Return b => mret b
  | Next => mret true
  end.

(** ** Construction *)

(** Attribute assignments [self._x = v] of lines 54-56. *)
Definition set_block_cache {F : Type} (block_cache : gmap string BlockWrapper)
  : M F unit := fun w =>
  (Returns tt,
   mkWorld (mkVerifier block_cache (_state_view_factory (this w))
              (_data_dir (this w)))
     (records w)).

Definition set_state_view_factory {F : Type} (state_view_factory : F)
  : M F unit := fun w =>
  (Returns tt,
   mkWorld (mkVerifier (_block_cache (this w)) state_view_factory
              (_data_dir (this w)))
     (records w)).

Definition set_data_dir {F : Type} (data_dir : string) : M F unit := fun w =>
  (Returns tt,
   mkWorld (mkVerifier (_block_cache (this w)) (_state_view_factory (this w))
              data_dir)
     (records w)).

(** [PoetBlockVerifier.__init__], lines 37-56.  The initializer of the base
    class [BlockVerifierInterface] belongs to another package and is taken
    as a parameter. *)
Definition __init__ {F : Type}
    (super_init : gmap string BlockWrapper → F → string → M F unit)
    (block_cache : gmap string BlockWrapper) (state_view_factory : F)
    (data_dir : string) : M F unit :=
  super_init block_cache state_view_factory data_dir;;
  set_block_cache block_cache;;
  set_state_view_factory state_view_factory;;
  set_data_dir data_dir.

(** ** More ways of reading the [try] suite *)

(** Started in world [w], every call of the suite returned, the last one,
    [check_valid], leaving world [w']. *)
Definition completes {F SV PEM VRV WC : Type} (E : Env F SV PEM VRV WC)
    (block_wrapper : BlockWrapper) (pem : PEM) (vrv : VRV)
    (w w' : World F) : Prop :=
  ∃ vi w1 certificates w3 wait_certificate w4,
    get_validator_info E vrv
      (BlockHeader.signer_pubkey (header block_wrapper)) w
    = (Returns vi, w1) ∧
    build_certificate_list E (header block_wrapper)
      (_block_cache (this (debug_block_signer vi w1).2)) pem
      (certificate_sample_length E) (debug_block_signer vi w1).2
    = (Returns certificates, w3) ∧
    deserialize_wait_certificate E block_wrapper pem w3
    = (Returns (Some wait_certificate), w4) ∧
    check_valid E wait_certificate pem certificates
      (poet_public_key (signup_info vi)) w4 = (Returns tt, w').

(** Started in world [w], the suite reached the deserialization of the
    candidate's certificate, which returned [None] and left world [w']. *)
Definition certificate_missing {F SV PEM VRV WC : Type}
    (E : Env F SV PEM VRV WC)
    (block_wrapper : BlockWrapper) (pem : PEM) (vrv : VRV)
    (w w' : World F) : Prop :=
  ∃ vi w1 certificates w3,
    get_validator_info E vrv
      (BlockHeader.signer_pubkey (header block_wrapper)) w
    = (Returns vi, w1) ∧
    build_certificate_list E (header block_wrapper)
      (_block_cache (this (debug_block_signer vi w1).2)) pem
      (certificate_sample_length E) (debug_block_signer vi w1).2
    = (Returns certificates, w3) ∧
    deserialize_wait_certificate E block_wrapper pem w3
    = (Returns None, w').

(** The exception Python raises for [None.check_valid]. *)
Definition no_check_valid : PyExc :=
  mkExc AttributeError "'NoneType' object has no attribute 'check_valid'".

(** [head] and [tail] are what the slices [s[:8]] and [s[-8:]] show of
    [s]: its first and its last eight characters, or all of it when it is
    shorter. *)
Definition abbreviates (s head tail : string) : Prop :=
  (∃ rest, s = head +:+ rest) ∧
  (∃ front, s = front +:+ tail) ∧
  String.length head = 8 `min` String.length s ∧
  String.length tail = 8 `min` String.length s.

(** ** The call of [check_valid] *)

Definition with_check_valid {F SV PEM VRV WC : Type} (E : Env F SV PEM VRV WC)
    (cv : WC → PEM → list WC → string → M F unit) : Env F SV PEM VRV WC :=
  {| create_view := create_view E;
     get_poet_enclave_module := get_poet_enclave_module E;
     new_ValidatorRegistryView := new_ValidatorRegistryView E;
     get_validators := get_validators E;
     get_validator_info := get_validator_info E;
     build_certificate_list := build_certificate_list E;
     deserialize_wait_certificate := deserialize_wait_certificate E;
     check_valid := cv;
     certificate_sample_length := certificate_sample_length E |}.

(** Started in world [w], the suite reached line 126: the history builder,
    called with [block_cache], returned [certificates], the candidate's own
    certificate was deserialized to [wait_certificate], and [check_valid] is
    about to be called on it with [certificates] and [key] in world [w']. *)
Definition handed_to_check_valid {F SV PEM VRV WC : Type}
    (E : Env F SV PEM VRV WC)
    (block_wrapper : BlockWrapper) (pem : PEM) (vrv : VRV) (w : World F)
    (block_cache : gmap string BlockWrapper) (certificates : list WC)
    (wait_certificate : WC) (key : string) (w' : World F) : Prop :=
  ∃ vi w1 w3,
    get_validator_info E vrv
      (BlockHeader.signer_pubkey (header block_wrapper)) w
    = (Returns vi, w1) ∧
    block_cache = _block_cache (this (debug_block_signer vi w1).2) ∧
    build_certificate_list E (header block_wrapper) block_cache pem
      (certificate_sample_length E) (debug_block_signer vi w1).2
    = (Returns certificates, w3) ∧
    deserialize_wait_certificate E block_wrapper pem w3
    = (Returns (Some wait_certificate), w') ∧
    key = poet_public_key (signup_info vi).

(** ** More of the demo ledger *)

Module Demo2.

(** The base class is abstract; its initializer does nothing. *)
Definition super_init (_ : gmap string BlockWrapper) (_ : unit) (_ : string)
  : M unit unit := mret tt.

(** An object before [__init__] ran, with leftovers in its fields. *)
Definition raw : World unit := mkWorld (mkVerifier ∅ tt "") [].

(** A chain-start candidate as [Demo.first], signed by somebody else and
    with another payload. *)
Definition first_other : BlockWrapper :=
  Demo.block "g0" "0000000000000000" "root0" "03ffmallory" "{}".

End Demo2.

(** ** Caches and collaborators that misbehave *)

Module Demo3.

(** A block cached under its own predecessor identifier. *)
Definition looped : BlockWrapper :=
  Demo.block "b2" "b2" "root1" (id Demo.alice) "{poet-alice:2}".

Definition cache : gmap string BlockWrapper := <["b2" := looped]> Demo.cache.

Definition w0 : World unit :=
  mkWorld (mkVerifier cache tt "/var/lib/sawtooth") [].

(** A validity check that refuses a certificate found in its own sample. *)
Definition check_fresh (certificate : string) (pem : unit)
    (certificates : list string) (poet_public_key : string) : M unit unit :=
  if bool_decide (certificate ∈ certificates)
  then raise (mkExc ValueError "certificate is part of its own sample")
  else Demo.check certificate pem certificates poet_public_key.

Definition fresh : Env unit string unit (list ValidatorInfo) string :=
  with_check_valid Demo.env check_fresh.

(** An enclave factory that evicts [b0] from the verifier's block cache. *)
Definition evict (_ : string) : M unit unit := fun w =>
  (Returns tt,
   mkWorld
     (mkVerifier (delete "b0" (_block_cache (this w)))
        (_state_view_factory (this w)) (_data_dir (this w)))
     (records w)).

Definition evicting : Env unit string unit (list ValidatorInfo) string :=
  {| create_view := create_view Demo.env;
     get_poet_enclave_module := evict;
     new_ValidatorRegistryView := new_ValidatorRegistryView Demo.env;
     get_validators := get_validators Demo.env;
     get_validator_info := get_validator_info Demo.env;
     build_certificate_list := build_certificate_list Demo.env;
     deserialize_wait_certificate := deserialize_wait_certificate Demo.env;
     check_valid := check_valid Demo.env;
     certificate_sample_length := certificate_sample_length Demo.env |}.

End Demo3.

(** * Properties *)

Section Properties.

Context {StateViewFactory StateView PoetEnclaveModule : Type}.
Context {ValidatorRegistryView WaitCertificate : Type}.

Abbreviation Env' :=
  (Env StateViewFactory StateView PoetEnclaveModule ValidatorRegistryView
     WaitCertificate).
Abbreviation World' := (World StateViewFactory).

Implicit Types (E : Env') (w : World') (e : PyExc).
Implicit Types (block_wrapper : BlockWrapper).

(** ** Stepping through the monad *)

Lemma bind_returns {A B} (m : M StateViewFactory A)
    (k : A → M StateViewFactory B) w a w' :
  m w = (Returns a, w') → (m ≫= k) w = k a w'.
Proof. intros H. unfold mbind, M_bind. by rewrite H. Qed.

Lemma bind_raises {A B} (m : M StateViewFactory A)
    (k : A → M StateViewFactory B) w e w' :
  m w = (Raises e, w') → (m ≫= k) w = (Raises e, w').
Proof. intros H. unfold mbind, M_bind. by rewrite H. Qed.

Lemma lookup_previous_block_returns block_wrapper w :
  lookup_previous_block block_wrapper w
  = (Returns (_block_cache (this w) !! previous_block_id block_wrapper), w).
Proof.
  unfold lookup_previous_block, try_except, self, getitem, raise.
  unfold mbind, M_bind, mret, M_ret.
  by destruct (_block_cache (this w) !! previous_block_id block_wrapper).
Qed.

Lemma verify_block_context E block_wrapper w :
  verify_block E block_wrapper w
  = (state_view ←
       create_view E (_state_view_factory (this w))
         (spec_state_root w block_wrapper);
     poet_enclave_module ← get_poet_enclave_module E state_view;
     validator_registry_view ← new_ValidatorRegistryView E state_view;
     validators ← get_validators E validator_registry_view;
     decide_block E block_wrapper poet_enclave_module
       validator_registry_view validators) w.
Proof.
  unfold verify_block.
  erewrite bind_returns by apply lookup_previous_block_returns.
  unfold spec_state_root.
  by destruct (_block_cache (this w) !! previous_block_id block_wrapper).
Qed.

Lemma verify_block_resolved E block_wrapper w pem vrv validators w' :
  resolves E block_wrapper w pem vrv validators w' →
  verify_block E block_wrapper w
  = decide_block E block_wrapper pem vrv validators w'.
Proof.
  intros (sv & w1 & w2 & w3 & H1 & H2 & H3 & H4).
  rewrite verify_block_context.
  erewrite bind_returns by exact H1.
  erewrite bind_returns by exact H2.
  erewrite bind_returns by exact H3.
  by erewrite bind_returns by exact H4.
Qed.

Lemma verify_block_context_fails E block_wrapper w e w' :
  context_fails E block_wrapper w e w' →
  verify_block E block_wrapper w = (Raises e, w').
Proof.
  intros H. rewrite verify_block_context.
  destruct H as [H1|sv w1 H1 H2|sv w1 pem w2 H1 H2 H3
                 |sv w1 pem w2 vrv w3 H1 H2 H3 H4].
  - by erewrite bind_raises by exact H1.
  - erewrite bind_returns by exact H1.
    by erewrite bind_raises by exact H2.
  - erewrite bind_returns by exact H1.
    erewrite bind_returns by exact H2.
    by erewrite bind_raises by exact H3.
  - erewrite bind_returns by exact H1.
    erewrite bind_returns by exact H2.
    erewrite bind_returns by exact H3.
    by erewrite bind_raises by exact H4.
Qed.

Lemma decide_block_empty E block_wrapper pem vrv w :
  decide_block E block_wrapper pem vrv [] w
  = (Returns true, mkWorld (this w) (records w ++ [accepted_by_default])).
Proof. reflexivity. Qed.

Lemma decide_block_raised E block_wrapper pem vrv validators w e w' :
  0 < length validators →
  verification_attempt E block_wrapper pem vrv w = (Raises e, w') →
  decide_block E block_wrapper pem vrv validators w = handled e w'.
Proof.
  intros Hlen Hraise. unfold decide_block.
  rewrite bool_decide_eq_true_2 by done.
  unfold try_except, handled, verification_handlers.
  unfold mbind at 1. unfold M_bind. rewrite Hraise.
  by destruct (exc_class e).
Qed.

Lemma decide_block_returned E block_wrapper pem vrv validators w fl w' :
  0 < length validators →
  verification_attempt E block_wrapper pem vrv w = (Returns fl, w') →
  decide_block E block_wrapper pem vrv validators w
  = (Returns (match fl with Return b => b | Next => true end), w').
Proof.
  intros Hlen Hret. unfold decide_block.
  rewrite bool_decide_eq_true_2 by done.
  unfold try_except. unfold mbind at 1. unfold M_bind. rewrite Hret.
  by destruct fl.
Qed.

Lemma debug_block_signer_returns (vi : ValidatorInfo) w :
  debug_block_signer vi w = (Returns (), (debug_block_signer vi w).2).
Proof. reflexivity. Qed.

Lemma attempt_raised_at E st block_wrapper pem vrv w e w' :
  raised_at E st block_wrapper pem vrv w e w' →
  verification_attempt E block_wrapper pem vrv w = (Raises e, w').
Proof.
  unfold verification_attempt.
  destruct st; simpl.
  - intros H. by erewrite bind_raises by exact H.
  - intros (vi & w1 & H1 & H2).
    erewrite bind_returns by exact H1.
    erewrite bind_returns by apply debug_block_signer_returns.
    erewrite bind_returns by reflexivity.
    by erewrite bind_raises by exact H2.
  - intros (vi & w1 & certs & w3 & H1 & H2 & H3).
    erewrite bind_returns by exact H1.
    erewrite bind_returns by apply debug_block_signer_returns.
    erewrite bind_returns by reflexivity.
    erewrite bind_returns by exact H2.
    by erewrite bind_raises by exact H3.
  - intros (vi & w1 & certs & w3 & c & w4 & H1 & H2 & H3 & H4).
    erewrite bind_returns by exact H1.
    erewrite bind_returns by apply debug_block_signer_returns.
    erewrite bind_returns by reflexivity.
    erewrite bind_returns by exact H2.
    erewrite bind_returns by exact H3.
    erewrite bind_returns by reflexivity.
    by erewrite bind_raises by exact H4.
Qed.

Lemma verify_block_raised_at E st block_wrapper w pem vrv validators w1 e w2 :
  resolves E block_wrapper w pem vrv validators w1 →
  0 < length validators →
  raised_at E st block_wrapper pem vrv w1 e w2 →
  verify_block E block_wrapper w = handled e w2.
Proof.
  intros Hres Hlen Hraise.
  rewrite (verify_block_resolved _ _ _ _ _ _ _ Hres).
  apply decide_block_raised; [done|].
  by eapply attempt_raised_at.
Qed.


(** ** The decision branches *)

(** C3: when the registry obtained for the resolved state root holds no
    validator, [verify_block] returns [True] whatever the candidate's
    consensus payload is, and logs the accepted-by-default warning. *)
Theorem empty_registry_accepts E block_wrapper w pem vrv validators w1 :
  resolves E block_wrapper w pem vrv validators w1 →
  length validators = 0 →
  (verify_block E block_wrapper w).1 = Returns true ∧
  records (verify_block E block_wrapper w).2
  = records w1 ++ [accepted_by_default].
Proof.
  intros Hres Hlen.
  rewrite (verify_block_resolved _ _ _ _ _ _ _ Hres).
  destruct validators; [|done].
  by rewrite decide_block_empty.
Qed.

(** C4: when the registry is not empty and the lookup of the candidate
    header's signer public key fails with a [KeyError] (no registered
    validator matches), [verify_block] returns [False] and logs the
    no-validator-registry-entry error. *)
Theorem unregistered_proposer_rejected
    E block_wrapper w pem vrv validators w1 e w2 :
  resolves E block_wrapper w pem vrv validators w1 →
  0 < length validators →
  raised_at E RegistryLookup block_wrapper pem vrv w1 e w2 →
  exc_class e = KeyError →
  (verify_block E block_wrapper w).1 = Returns false ∧
  records (verify_block E block_wrapper w).2
  = records w2 ++ [no_registry_entry].
Proof.
  intros Hres Hlen Hraise Hclass.
  rewrite (verify_block_raised_at _ _ _ _ _ _ _ _ _ _ Hres Hlen Hraise).
  unfold handled. by rewrite Hclass.
Qed.

(** C2: when the candidate's wait certificate deserializes and [check_valid]
    then fails with a [ValueError] (the certificate is not valid against the
    sample and the proposer's key), [verify_block] returns [True]; the
    failure is logged as an error, followed by the accept-for-now
    warning. *)
Theorem validation_failure_accepted
    E block_wrapper w pem vrv validators w1 e w2 :
  resolves E block_wrapper w pem vrv validators w1 →
  0 < length validators →
  raised_at E Validation block_wrapper pem vrv w1 e w2 →
  exc_class e = ValueError →
  (verify_block E block_wrapper w).1 = Returns true ∧
  records (verify_block E block_wrapper w).2
  = records w2 ++ [not_valid e; accept_for_now].
Proof.
  intros Hres Hlen Hraise Hclass.
  rewrite (verify_block_raised_at _ _ _ _ _ _ _ _ _ _ Hres Hlen Hraise).
  unfold handled. rewrite Hclass. simpl. by rewrite <- app_assoc.
Qed.

(** C1 (amended): with a non-empty registry and a matching proposer entry,
    a failure of [deserialize_wait_certificate] on the candidate is decided
    by the class of the exception alone: a [KeyError] makes [verify_block]
    return [False], a [ValueError] (the class of decoding errors) makes it
    return [True] through the lenient handler, and an exception of any other
    class leaves [verify_block]. *)
Theorem deserialization_failure_outcome
    E block_wrapper w pem vrv validators w1 e w2 :
  resolves E block_wrapper w pem vrv validators w1 →
  0 < length validators →
  raised_at E Deserialization block_wrapper pem vrv w1 e w2 →
  (verify_block E block_wrapper w).1
  = match exc_class e with
    | KeyError => Returns false
    | ValueError => Returns true
    | _ => Raises e
    end.
Proof.
  intros Hres Hlen Hraise.
  rewrite (verify_block_raised_at _ _ _ _ _ _ _ _ _ _ Hres Hlen Hraise).
  unfold handled. by destruct (exc_class e).
Qed.

(** C8: a [ValueError] raised by any call of the [try] suite (registry
    lookup, certificate-history building, deserialization of the candidate's
    certificate, or [check_valid]) makes [verify_block] return [True]. *)
Theorem value_error_accepted
    E st block_wrapper w pem vrv validators w1 e w2 :
  resolves E block_wrapper w pem vrv validators w1 →
  0 < length validators →
  raised_at E st block_wrapper pem vrv w1 e w2 →
  exc_class e = ValueError →
  (verify_block E block_wrapper w).1 = Returns true.
Proof.
  intros Hres Hlen Hraise Hclass.
  rewrite (verify_block_raised_at _ _ _ _ _ _ _ _ _ _ Hres Hlen Hraise).
  unfold handled. by rewrite Hclass.
Qed.

(** C9: a [KeyError] raised by any call of the [try] suite, the
    certificate-history builder's cache lookups included, makes
    [verify_block] return [False] and log the no-validator-registry-entry
    error. *)
Theorem key_error_rejected
    E st block_wrapper w pem vrv validators w1 e w2 :
  resolves E block_wrapper w pem vrv validators w1 →
  0 < length validators →
  raised_at E st block_wrapper pem vrv w1 e w2 →
  exc_class e = KeyError →
  (verify_block E block_wrapper w).1 = Returns false ∧
  last (records (verify_block E block_wrapper w).2) = Some no_registry_entry.
Proof.
  intros Hres Hlen Hraise Hclass.
  rewrite (verify_block_raised_at _ _ _ _ _ _ _ _ _ _ Hres Hlen Hraise).
  unfold handled. rewrite Hclass. simpl. split; [done|]. apply last_snoc.
Qed.

(** ** Exceptions that leave [verify_block] *)

(** C6 (amended): [verify_block] raises [e] to its caller exactly when [e]
    was raised by one of the calls made before the [try] statement, or the
    registry is not empty and the [try] suite raised [e] with a class that
    is neither [KeyError] nor [ValueError]; in every other case it returns a
    boolean. *)
Theorem verify_block_raises_iff E block_wrapper w e :
  (verify_block E block_wrapper w).1 = Raises e ↔
  propagates E block_wrapper w e.
Proof.
  split.
  - rewrite verify_block_context. unfold mbind, M_bind.
    destruct (create_view E _ _ w) as [[sv|e1] w1] eqn:H1;
      [|intros [= ->]; eleft; by apply fails_create_view].
    destruct (get_poet_enclave_module E sv w1) as [[pem|e2] w2] eqn:H2;
      [|intros [= ->]; eleft; by eapply fails_enclave_module].
    destruct (new_ValidatorRegistryView E sv w2) as [[vrv|e3] w3] eqn:H3;
      [|intros [= ->]; eleft; by eapply fails_registry_view].
    destruct (get_validators E vrv w3) as [[vs|e4] w4] eqn:H4;
      [|intros [= ->]; eleft; by eapply fails_get_validators].
    assert (Hres : resolves E block_wrapper w pem vrv vs w4)
      by (by exists sv, w1, w2, w3).
    destruct vs as [|v vs]; [by rewrite decide_block_empty|].
    assert (Hlen : 0 < length (v :: vs)) by (simpl; lia).
    destruct (verification_attempt E block_wrapper pem vrv w4)
      as [[fl|e'] w5] eqn:Ha.
    + by rewrite (decide_block_returned _ _ _ _ _ _ _ _ Hlen Ha).
    + rewrite (decide_block_raised _ _ _ _ _ _ _ _ Hlen Ha).
      unfold handled.
      destruct (exc_class e') eqn:Hc; simpl; try done;
        intros [= ->]; eapply propagates_attempt; eauto; congruence.
  - intros [w' Hc|pem vrv vs w1 w2 Hres Hlen Ha Hk Hv].
    + by rewrite (verify_block_context_fails _ _ _ _ _ Hc).
    + rewrite (verify_block_resolved _ _ _ _ _ _ _ Hres).
      rewrite (decide_block_raised _ _ _ _ _ _ _ _ Hlen Ha).
      unfold handled. by destruct (exc_class e).
Qed.

(** ** The state root of the verification context *)

Lemma spec_state_root_cases block_wrapper w root :
  match _block_cache (this w) !! previous_block_id block_wrapper with
  | Some previous => root = state_root_hash previous
  | None => root = state_root_hash block_wrapper
  end →
  root = spec_state_root w block_wrapper.
Proof.
  unfold spec_state_root.
  by destruct (_block_cache (this w) !! previous_block_id block_wrapper).
Qed.

(** C5: let [root] be the previous block's state root hash when the
    candidate's previous block is in the block cache, and the candidate's
    own state root hash when it is not.  Then [create_view] is called at
    [root] and nowhere else: a factory that fails at [root] makes
    [verify_block] fail at once, and [verify_block] does not tell apart two
    factories that answer alike at [root]. *)
Theorem state_root_of_context E block_wrapper w root cv e :
  match _block_cache (this w) !! previous_block_id block_wrapper with
  | Some previous => root = state_root_hash previous
  | None => root = state_root_hash block_wrapper
  end →
  cv (_state_view_factory (this w)) root w
  = create_view E (_state_view_factory (this w)) root w →
  verify_block (with_create_view E cv) block_wrapper w
  = verify_block E block_wrapper w ∧
  verify_block (with_create_view E (failing_at E root e)) block_wrapper w
  = (Raises e, w).
Proof.
  intros Hroot Hcv. apply spec_state_root_cases in Hroot. subst root.
  rewrite !verify_block_context. split.
  - unfold mbind at 1 5. unfold M_bind. simpl. by rewrite Hcv.
  - apply bind_raises. simpl. unfold failing_at.
    by rewrite decide_True.
Qed.

(** ** Frame *)

Lemma only_logs_ret {A} (a : A) : only_logs (mret a : M StateViewFactory A).
Proof. intros w. split; [done|]. exists []. by rewrite app_nil_r. Qed.

Lemma only_logs_raise {A} e : only_logs (raise e : M StateViewFactory A).
Proof. intros w. split; [done|]. exists []. by rewrite app_nil_r. Qed.

Lemma only_logs_self : only_logs (self : M StateViewFactory _).
Proof. intros w. split; [done|]. exists []. by rewrite app_nil_r. Qed.

Lemma only_logs_LOGGER lvl fmt a :
  only_logs (LOGGER lvl fmt a : M StateViewFactory unit).
Proof. intros w. split; [done|]. by eexists. Qed.

Lemma only_logs_bind {A B} (m : M StateViewFactory A)
    (k : A → M StateViewFactory B) :
  only_logs m → (∀ a, only_logs (k a)) → only_logs (m ≫= k).
Proof.
  intros Hm Hk w. unfold mbind, M_bind.
  destruct (Hm w) as [Hthis [l Hl]].
  destruct (m w) as [[a|e] w1]; simpl in *.
  - destruct (Hk a w1) as [Hthis' [l' Hl']].
    split; [congruence|]. exists (l ++ l').
    by rewrite Hl', Hl, app_assoc.
  - split; [done|]. by exists l.
Qed.

Lemma only_logs_try_except {A} (body : M StateViewFactory A) handlers :
  only_logs body →
  (∀ e h, handlers e = Some h → only_logs h) →
  only_logs (try_except body handlers).
Proof.
  intros Hb Hh w. unfold try_except.
  destruct (Hb w) as [Hthis [l Hl]].
  destruct (body w) as [[a|e] w1]; simpl in *.
  - split; [done|]. by exists l.
  - destruct (handlers e) as [h|] eqn:He; simpl.
    + destruct (Hh e h He w1) as [Hthis' [l' Hl']].
      split; [congruence|]. exists (l ++ l').
      by rewrite Hl', Hl, app_assoc.
    + split; [done|]. by exists l.
Qed.

Lemma only_logs_getitem {V} (d : gmap string V) k :
  only_logs (getitem d k : M StateViewFactory V).
Proof.
  unfold getitem. destruct (d !! k); [apply only_logs_ret|apply only_logs_raise].
Qed.

Lemma only_logs_attr_of {A} (o : option A) attr :
  only_logs (attr_of o attr : M StateViewFactory A).
Proof. destruct o; [apply only_logs_ret|apply only_logs_raise]. Qed.

Create HintDb frame discriminated.

#[local] Hint Resolve only_logs_ret only_logs_raise only_logs_self
  only_logs_LOGGER only_logs_getitem only_logs_attr_of : frame.

Ltac frame :=
  repeat first
    [ apply only_logs_bind; [|intros ?]
    | apply only_logs_try_except
    | progress cbv zeta
    | solve [eauto with frame]
    | match goal with
      | |- only_logs (match ?x with _ => _ end) => destruct x
      end ].

Lemma only_logs_handlers e (h : M StateViewFactory Flow) :
  verification_handlers e = Some h → only_logs h.
Proof.
  unfold verification_handlers.
  destruct (exc_class e); intros [= <-]; frame.
Qed.

Lemma only_logs_spec_walk E c pem n :
  (∀ b, only_logs (deserialize_wait_certificate E b pem)) →
  ∀ block_id, only_logs (spec_walk_ancestors E c pem n block_id).
Proof.
  intros Hd. induction n as [|n IH]; intros block_id; simpl; [frame|].
  destruct (c !! block_id); [|frame].
  apply only_logs_bind; [apply Hd|]. intros [certificate|]; [|frame].
  apply only_logs_bind; [apply IH|]. intros older. frame.
Qed.


(** ** The certificate sample *)

Lemma ancestors_length c n block_id : length (ancestors c n block_id) ≤ n.
Proof.
  revert block_id. induction n as [|n IH]; intros block_id; simpl; [done|].
  destruct (c !! block_id); simpl; [|lia].
  specialize (IH (BlockHeader.previous_block_id (header b))). lia.
Qed.

Lemma ancestors_prefix c n m block_id :
  n ≤ m → ancestors c n block_id `prefix_of` ancestors c m block_id.
Proof.
  revert m block_id. induction n as [|n IH]; intros m block_id Hle; simpl.
  - apply prefix_nil.
  - destruct m as [|m]; [lia|]. simpl.
    destruct (c !! block_id); [|done].
    apply prefix_cons, IH. lia.
Qed.

Lemma spec_walk_ancestors_sample E c pem n :
  ∀ block_id w sample w',
    spec_walk_ancestors E c pem n block_id w = (Returns sample, w') →
    ∃ blocks,
      blocks `prefix_of` ancestors c n block_id ∧
      Forall2 (certificate_of E pem) blocks sample.
Proof.
  induction n as [|n IH]; intros block_id w sample w'; simpl.
  - intros [= <- _]. exists []. split; [done|constructor].
  - destruct (c !! block_id) as [b|] eqn:Hb.
    + unfold mbind, M_bind.
      destruct (deserialize_wait_certificate E b pem w)
        as [[[certificate|]|e] w1] eqn:Hd; [| |done].
      * destruct (spec_walk_ancestors E c pem n _ w1)
          as [[older|e] w2] eqn:Hw; [|done].
        intros [= <- _].
        destruct (IH _ _ _ _ Hw) as (blocks & Hpre & Hall).
        exists (b :: blocks). split; [by apply prefix_cons|].
        constructor; [by exists w, w1|done].
      * intros [= <- _]. exists []. split; [apply prefix_nil|constructor].
    + intros [= <- _]. exists []. split; [done|constructor].
Qed.

(** The sample of the specification's history builder, for the arguments
    [verify_block] passes. *)
Lemma spec_sample_of_ancestors E block_wrapper c pem w sample w' :
  spec_build_certificate_list E (header block_wrapper) c pem
    (certificate_sample_length E) w = (Returns sample, w') →
  let predecessor := BlockHeader.previous_block_id (header block_wrapper) in
  length sample ≤ certificate_sample_length E ∧
  (∀ n, certificate_sample_length E ≤ n →
        length sample ≤ length (ancestors c n predecessor)) ∧
  ∃ blocks,
    blocks `prefix_of` ancestors c (certificate_sample_length E) predecessor ∧
    Forall2 (certificate_of E pem) blocks sample ∧
    (block_wrapper ∉ ancestors c (certificate_sample_length E) predecessor →
     block_wrapper ∉ blocks).
Proof.
  intros Hbuild predecessor.
  destruct (spec_walk_ancestors_sample _ _ _ _ _ _ _ _ Hbuild)
    as (blocks & Hpre & Hall).
  pose proof (Forall2_length _ _ _ Hall) as Hlen.
  pose proof (prefix_length _ _ Hpre) as Hle.
  split; [|split].
  - pose proof (ancestors_length c (certificate_sample_length E) predecessor).
    fold predecessor in Hle. lia.
  - intros n Hn.
    pose proof (prefix_length _ _ (ancestors_prefix c _ _ predecessor Hn)).
    fold predecessor in Hle. lia.
  - exists blocks. repeat split; [done..|].
    intros Hnot Hin. apply Hnot. by eapply elem_of_prefix.
Qed.

End Properties.

(** * Runs on the demo ledger *)

Lemma demo_resolves (E : Env unit string unit (list ValidatorInfo) string)
    (candidate : BlockWrapper) :
  create_view E = create_view Demo.base →
  get_poet_enclave_module E = get_poet_enclave_module Demo.base →
  new_ValidatorRegistryView E = new_ValidatorRegistryView Demo.base →
  get_validators E = get_validators Demo.base →
  previous_block_id candidate = "b1" →
  resolves E candidate Demo.w0 tt [Demo.alice] [Demo.alice] Demo.w0.
Proof.
  intros H1 H2 H3 H4 Hprev.
  exists "root1", Demo.w0, Demo.w0, Demo.w0.
  rewrite H1, H2, H3, H4. unfold spec_state_root. rewrite Hprev.
  repeat split; reflexivity.
Defined.

Lemma empty_registry_accepts_witness :
  resolves Demo.env Demo.first Demo.w0 tt [] [] Demo.w0 ∧
  length (@nil ValidatorInfo) = 0 ∧
  (verify_block Demo.env Demo.first Demo.w0).1 = Returns true ∧
  records (verify_block Demo.env Demo.first Demo.w0).2
  = records Demo.w0 ++ [accepted_by_default].
Proof.
  assert (Hres : resolves Demo.env Demo.first Demo.w0 tt [] [] Demo.w0).
  { exists "root0", Demo.w0, Demo.w0, Demo.w0. repeat split; reflexivity. }
  split; [exact Hres|]. split; [reflexivity|].
  exact (empty_registry_accepts Demo.env Demo.first Demo.w0 tt [] [] Demo.w0
           Hres eq_refl).
Defined.

Lemma unregistered_proposer_rejected_witness :
  resolves Demo.env Demo.stranger Demo.w0 tt [Demo.alice] [Demo.alice]
    Demo.w0 ∧
  0 < length [Demo.alice] ∧
  raised_at Demo.env RegistryLookup Demo.stranger tt [Demo.alice] Demo.w0
    (mkExc KeyError "03ffmallory") Demo.w0 ∧
  exc_class (mkExc KeyError "03ffmallory") = KeyError ∧
  (verify_block Demo.env Demo.stranger Demo.w0).1 = Returns false ∧
  records (verify_block Demo.env Demo.stranger Demo.w0).2
  = records Demo.w0 ++ [no_registry_entry].
Proof.
  assert (Hres : resolves Demo.env Demo.stranger Demo.w0 tt [Demo.alice]
                   [Demo.alice] Demo.w0)
    by (apply demo_resolves; reflexivity).
  assert (Hlen : 0 < length [Demo.alice]) by (simpl; lia).
  assert (Hraise : raised_at Demo.env RegistryLookup Demo.stranger tt
                     [Demo.alice] Demo.w0 (mkExc KeyError "03ffmallory")
                     Demo.w0)
    by reflexivity.
  split; [exact Hres|]. split; [exact Hlen|]. split; [exact Hraise|].
  split; [reflexivity|].
  exact (unregistered_proposer_rejected Demo.env Demo.stranger Demo.w0 tt
           [Demo.alice] [Demo.alice] Demo.w0 _ Demo.w0 Hres Hlen Hraise
           eq_refl).
Defined.

Lemma validation_failure_accepted_witness :
  resolves Demo.env Demo.forged Demo.w0 tt [Demo.alice] [Demo.alice]
    Demo.w0 ∧
  0 < length [Demo.alice] ∧
  raised_at Demo.env Validation Demo.forged tt [Demo.alice] Demo.w0
    (mkExc ValueError "Wait certificate signature is invalid")
    (debug_block_signer Demo.alice Demo.w0).2 ∧
  (verify_block Demo.env Demo.forged Demo.w0).1 = Returns true ∧
  records (verify_block Demo.env Demo.forged Demo.w0).2
  = records (debug_block_signer Demo.alice Demo.w0).2
    ++ [not_valid (mkExc ValueError "Wait certificate signature is invalid");
        accept_for_now].
Proof.
  assert (Hres : resolves Demo.env Demo.forged Demo.w0 tt [Demo.alice]
                   [Demo.alice] Demo.w0)
    by (apply demo_resolves; reflexivity).
  assert (Hlen : 0 < length [Demo.alice]) by (simpl; lia).
  assert (Hraise : raised_at Demo.env Validation Demo.forged tt
                     [Demo.alice] Demo.w0
                     (mkExc ValueError "Wait certificate signature is invalid")
                     (debug_block_signer Demo.alice Demo.w0).2).
  { exists Demo.alice, Demo.w0, ["{poet-alice:1}"; "{poet-alice:0}"],
      (debug_block_signer Demo.alice Demo.w0).2, "{poet-mallory:2}",
      (debug_block_signer Demo.alice Demo.w0).2.
    repeat split; reflexivity. }
  split; [exact Hres|]. split; [exact Hlen|]. split; [exact Hraise|].
  exact (validation_failure_accepted Demo.env Demo.forged Demo.w0 tt
           [Demo.alice] [Demo.alice] Demo.w0 _ _ Hres Hlen Hraise eq_refl).
Defined.

(** C1 (as stated) fails: alice is registered at [root1] and proposes a
    block whose consensus payload does not decode; deserialization raises a
    [ValueError], and [verify_block] returns [True], not [False]. *)
Lemma deserialization_failure_accepted :
  resolves Demo.env Demo.garbled Demo.w0 tt [Demo.alice] [Demo.alice]
    Demo.w0 ∧
  0 < length [Demo.alice] ∧
  raised_at Demo.env Deserialization Demo.garbled tt [Demo.alice] Demo.w0
    (mkExc ValueError "Expecting value: line 1 column 1 (char 0)")
    (debug_block_signer Demo.alice Demo.w0).2 ∧
  (verify_block Demo.env Demo.garbled Demo.w0).1 = Returns true ∧
  (verify_block Demo.env Demo.garbled Demo.w0).1 ≠ Returns false.
Proof.
  split; [apply demo_resolves; reflexivity|].
  split; [simpl; lia|].
  split.
  - exists Demo.alice, Demo.w0, ["{poet-alice:1}"; "{poet-alice:0}"],
      (debug_block_signer Demo.alice Demo.w0).2.
    repeat split; reflexivity.
  - split; [reflexivity|]. vm_compute. discriminate.
Qed.

Lemma deserialization_failure_outcome_witness :
  resolves Demo.env Demo.garbled Demo.w0 tt [Demo.alice] [Demo.alice]
    Demo.w0 ∧
  0 < length [Demo.alice] ∧
  raised_at Demo.env Deserialization Demo.garbled tt [Demo.alice] Demo.w0
    (mkExc ValueError "Expecting value: line 1 column 1 (char 0)")
    (debug_block_signer Demo.alice Demo.w0).2 ∧
  (verify_block Demo.env Demo.garbled Demo.w0).1 = Returns true.
Proof.
  assert (Hres : resolves Demo.env Demo.garbled Demo.w0 tt [Demo.alice]
                   [Demo.alice] Demo.w0)
    by (apply demo_resolves; reflexivity).
  assert (Hlen : 0 < length [Demo.alice]) by (simpl; lia).
  assert (Hraise : raised_at Demo.env Deserialization Demo.garbled tt
                     [Demo.alice] Demo.w0
                     (mkExc ValueError
                        "Expecting value: line 1 column 1 (char 0)")
                     (debug_block_signer Demo.alice Demo.w0).2).
  { exists Demo.alice, Demo.w0, ["{poet-alice:1}"; "{poet-alice:0}"],
      (debug_block_signer Demo.alice Demo.w0).2.
    repeat split; reflexivity. }
  split; [exact Hres|]. split; [exact Hlen|]. split; [exact Hraise|].
  exact (deserialization_failure_outcome Demo.env Demo.garbled Demo.w0 tt
           [Demo.alice] [Demo.alice] Demo.w0 _ _ Hres Hlen Hraise).
Defined.

Lemma value_error_accepted_witness :
  resolves Demo.env Demo.garbled Demo.w0 tt [Demo.alice] [Demo.alice]
    Demo.w0 ∧
  0 < length [Demo.alice] ∧
  raised_at Demo.env Deserialization Demo.garbled tt [Demo.alice] Demo.w0
    (mkExc ValueError "Expecting value: line 1 column 1 (char 0)")
    (debug_block_signer Demo.alice Demo.w0).2 ∧
  exc_class (mkExc ValueError "Expecting value: line 1 column 1 (char 0)")
  = ValueError ∧
  (verify_block Demo.env Demo.garbled Demo.w0).1 = Returns true.
Proof.
  assert (Hres : resolves Demo.env Demo.garbled Demo.w0 tt [Demo.alice]
                   [Demo.alice] Demo.w0)
    by (apply demo_resolves; reflexivity).
  assert (Hlen : 0 < length [Demo.alice]) by (simpl; lia).
  assert (Hraise : raised_at Demo.env Deserialization Demo.garbled tt
                     [Demo.alice] Demo.w0
                     (mkExc ValueError
                        "Expecting value: line 1 column 1 (char 0)")
                     (debug_block_signer Demo.alice Demo.w0).2).
  { exists Demo.alice, Demo.w0, ["{poet-alice:1}"; "{poet-alice:0}"],
      (debug_block_signer Demo.alice Demo.w0).2.
    repeat split; reflexivity. }
  split; [exact Hres|]. split; [exact Hlen|]. split; [exact Hraise|].
  split; [reflexivity|].
  exact (value_error_accepted Demo.env Deserialization Demo.garbled Demo.w0
           tt [Demo.alice] [Demo.alice] Demo.w0 _ _ Hres Hlen Hraise eq_refl).
Defined.

(** With a history builder that indexes the cache unguarded, the walk from
    [good] runs past [b0] and raises a [KeyError]. *)
Lemma key_error_rejected_witness :
  resolves Demo.unguarded Demo.good Demo.w0 tt [Demo.alice] [Demo.alice]
    Demo.w0 ∧
  0 < length [Demo.alice] ∧
  raised_at Demo.unguarded HistoryBuilding Demo.good tt [Demo.alice] Demo.w0
    (mkExc KeyError "0000000000000000")
    (debug_block_signer Demo.alice Demo.w0).2 ∧
  exc_class (mkExc KeyError "0000000000000000") = KeyError ∧
  (verify_block Demo.unguarded Demo.good Demo.w0).1 = Returns false ∧
  last (records (verify_block Demo.unguarded Demo.good Demo.w0).2)
  = Some no_registry_entry.
Proof.
  assert (Hres : resolves Demo.unguarded Demo.good Demo.w0 tt [Demo.alice]
                   [Demo.alice] Demo.w0)
    by (apply demo_resolves; reflexivity).
  assert (Hlen : 0 < length [Demo.alice]) by (simpl; lia).
  assert (Hraise : raised_at Demo.unguarded HistoryBuilding Demo.good tt
                     [Demo.alice] Demo.w0
                     (mkExc KeyError "0000000000000000")
                     (debug_block_signer Demo.alice Demo.w0).2).
  { exists Demo.alice, Demo.w0. split; reflexivity. }
  split; [exact Hres|]. split; [exact Hlen|]. split; [exact Hraise|].
  split; [reflexivity|].
  exact (key_error_rejected Demo.unguarded HistoryBuilding Demo.good Demo.w0
           tt [Demo.alice] [Demo.alice] Demo.w0 _ _ Hres Hlen Hraise eq_refl).
Defined.

(** C6 (as stated) fails: the predecessor of [stray] is not cached and the
    state view factory knows no state at [root9]; its exception leaves
    [verify_block], which yields no boolean.  So does the [AttributeError]
    met when deserialization hands back [None] for [blank]. *)
Lemma verify_block_can_raise :
  (verify_block Demo.env Demo.stray Demo.w0).1
  = Raises (mkExc OtherError "no state at root9") ∧
  (¬ ∃ b : bool, (verify_block Demo.env Demo.stray Demo.w0).1 = Returns b) ∧
  (verify_block Demo.env Demo.blank Demo.w0).1
  = Raises (mkExc AttributeError
              "'NoneType' object has no attribute 'check_valid'") ∧
  (¬ ∃ b : bool, (verify_block Demo.env Demo.blank Demo.w0).1 = Returns b).
Proof.
  assert (H1 : (verify_block Demo.env Demo.stray Demo.w0).1
               = Raises (mkExc OtherError "no state at root9"))
    by reflexivity.
  assert (H2 : (verify_block Demo.env Demo.blank Demo.w0).1
               = Raises (mkExc AttributeError
                           "'NoneType' object has no attribute 'check_valid'"))
    by reflexivity.
  split; [exact H1|]. split; [rewrite H1; by intros [b ?]|].
  split; [exact H2|]. rewrite H2. by intros [b ?].
Qed.

Lemma state_root_of_context_witness :
  match _block_cache (this Demo.w0) !! previous_block_id Demo.good with
  | Some previous => "root1" = state_root_hash previous
  | None => "root1" = state_root_hash Demo.good
  end ∧
  Demo.only_root1 (_state_view_factory (this Demo.w0)) "root1" Demo.w0
  = create_view Demo.env (_state_view_factory (this Demo.w0)) "root1"
      Demo.w0 ∧
  verify_block (with_create_view Demo.env Demo.only_root1) Demo.good Demo.w0
  = verify_block Demo.env Demo.good Demo.w0 ∧
  verify_block
    (with_create_view Demo.env
       (failing_at Demo.env "root1" (mkExc OtherError "storage offline")))
    Demo.good Demo.w0
  = (Raises (mkExc OtherError "storage offline"), Demo.w0).
Proof.
  assert (Hroot :
    match _block_cache (this Demo.w0) !! previous_block_id Demo.good with
    | Some previous => "root1" = state_root_hash previous
    | None => "root1" = state_root_hash Demo.good
    end) by reflexivity.
  assert (Hcv : Demo.only_root1 (_state_view_factory (this Demo.w0)) "root1"
                  Demo.w0
                = create_view Demo.env (_state_view_factory (this Demo.w0))
                    "root1" Demo.w0) by reflexivity.
  split; [exact Hroot|]. split; [exact Hcv|].
  exact (state_root_of_context Demo.env Demo.good Demo.w0 "root1"
           Demo.only_root1 (mkExc OtherError "storage offline") Hroot Hcv).
Defined.

Lemma demo_read_only : read_only Demo.env.
Proof.
  constructor; simpl.
  - intros _ r. destruct (Demo.ledger !! r);
      [apply only_logs_ret|apply only_logs_raise].
  - intros sv. apply only_logs_ret.
  - intros sv. apply only_logs_ret.
  - intros vrv. apply only_logs_ret.
  - intros vrv k. destruct (List.find _ vrv);
      [apply only_logs_ret|apply only_logs_raise].
  - intros h c pem n. apply only_logs_spec_walk. intros b. simpl.
    unfold Demo.deserialize.
    destruct (String.eqb _ _); [apply only_logs_ret|].
    destruct (String.prefix _ _); [apply only_logs_ret|apply only_logs_raise].
  - intros b pem. unfold Demo.deserialize.
    destruct (String.eqb _ _); [apply only_logs_ret|].
    destruct (String.prefix _ _); [apply only_logs_ret|apply only_logs_raise].
  - intros c pem l k. unfold Demo.check.
    destruct (String.prefix _ _); [apply only_logs_ret|apply only_logs_raise].
Defined.


(** * Further properties of the verifier *)

Section Outcomes.

Context {StateViewFactory StateView PoetEnclaveModule : Type}.
Context {ValidatorRegistryView WaitCertificate : Type}.

Implicit Types
  (E : Env StateViewFactory StateView PoetEnclaveModule ValidatorRegistryView
         WaitCertificate)
  (w : World StateViewFactory) (e : PyExc) (block_wrapper : BlockWrapper).

(** ** Inverting a run *)

Lemma context_cases E block_wrapper w :
  (∃ e w', context_fails E block_wrapper w e w') ∨
  (∃ pem vrv validators w', resolves E block_wrapper w pem vrv validators w').
Proof.
  destruct (create_view E (_state_view_factory (this w))
              (spec_state_root w block_wrapper) w) as [[sv|e1] w1] eqn:H1;
    [|left; exists e1, w1; by apply fails_create_view].
  destruct (get_poet_enclave_module E sv w1) as [[pem|e2] w2] eqn:H2;
    [|left; exists e2, w2; by eapply fails_enclave_module].
  destruct (new_ValidatorRegistryView E sv w2) as [[vrv|e3] w3] eqn:H3;
    [|left; exists e3, w3; by eapply fails_registry_view].
  destruct (get_validators E vrv w3) as [[vs|e4] w4] eqn:H4;
    [|left; exists e4, w4; by eapply fails_get_validators].
  right. exists pem, vrv, vs, w4. by exists sv, w1, w2, w3.
Qed.

Lemma attempt_inversion E block_wrapper pem vrv w o w' :
  verification_attempt E block_wrapper pem vrv w = (o, w') →
  match o with
  | Returns fl => fl = Next ∧ completes E block_wrapper pem vrv w w'
  | Raises e =>
      (∃ st, raised_at E st block_wrapper pem vrv w e w') ∨
      (certificate_missing E block_wrapper pem vrv w w' ∧ e = no_check_valid)
  end.
Proof.
  unfold verification_attempt, mbind, M_bind, self.
  destruct (get_validator_info E vrv _ w) as [[vi|e1] w1] eqn:H1;
    [|intros [= <- <-]; left; by exists RegistryLookup].
  rewrite (debug_block_signer_returns vi w1). cbv beta iota.
  destruct (build_certificate_list E _ _ _ _ _) as [[certs|e2] w3] eqn:H2;
    [|intros [= <- <-]; left; exists HistoryBuilding; by exists vi, w1].
  destruct (deserialize_wait_certificate E block_wrapper pem w3)
    as [[[c|]|e3] w4] eqn:H3.
  - unfold attr_of, mret, M_ret.
    destruct (check_valid E c pem certs _ w4) as [[[]|e4] w5] eqn:H4.
    + intros [= <- <-]. split; [done|]. by exists vi, w1, certs, w3, c, w4.
    + intros [= <- <-]. left. exists Validation.
      by exists vi, w1, certs, w3, c, w4.
  - intros [= <- <-]. right. split; [|done]. by exists vi, w1, certs, w3.
  - intros [= <- <-]. left. exists Deserialization.
    by exists vi, w1, certs, w3.
Qed.

Lemma attempt_completes E block_wrapper pem vrv w w' :
  completes E block_wrapper pem vrv w w' →
  verification_attempt E block_wrapper pem vrv w = (Returns Next, w').
Proof.
  intros (vi & w1 & certs & w3 & c & w4 & H1 & H2 & H3 & H4).
  unfold verification_attempt.
  erewrite bind_returns by exact H1.
  erewrite bind_returns by apply debug_block_signer_returns.
  erewrite bind_returns by reflexivity.
  erewrite bind_returns by exact H2.
  erewrite bind_returns by exact H3.
  erewrite bind_returns by reflexivity.
  by erewrite bind_returns by exact H4.
Qed.

Lemma attempt_certificate_missing E block_wrapper pem vrv w w' :
  certificate_missing E block_wrapper pem vrv w w' →
  verification_attempt E block_wrapper pem vrv w = (Raises no_check_valid, w').
Proof.
  intros (vi & w1 & certs & w3 & H1 & H2 & H3).
  unfold verification_attempt.
  erewrite bind_returns by exact H1.
  erewrite bind_returns by apply debug_block_signer_returns.
  erewrite bind_returns by reflexivity.
  erewrite bind_returns by exact H2.
  erewrite bind_returns by exact H3.
  by erewrite bind_raises by reflexivity.
Qed.

(** ** The three outcomes *)

(** X1: when the registry is not empty and every call of the [try] suite
    returns ([check_valid] included), [verify_block] returns [True] and
    leaves the world as [check_valid] left it: no record is logged after the
    debug record of the block signer. *)
Theorem full_success_accepts E block_wrapper w pem vrv validators w1 w2 :
  resolves E block_wrapper w pem vrv validators w1 →
  0 < length validators →
  completes E block_wrapper pem vrv w1 w2 →
  verify_block E block_wrapper w = (Returns true, w2).
Proof.
  intros Hres Hlen Hdone.
  rewrite (verify_block_resolved _ _ _ _ _ _ _ Hres).
  by rewrite (decide_block_returned _ _ _ _ _ _ _ _ Hlen
                (attempt_completes _ _ _ _ _ _ Hdone)).
Qed.

(** X2: when the registry is not empty and [deserialize_wait_certificate]
    returns [None] for the candidate, [verify_block] neither accepts nor
    rejects: the [AttributeError] of [None.check_valid] leaves it, in the
    world deserialization left, so no handler ran and nothing was logged for
    it. *)
Theorem none_certificate_raises E block_wrapper w pem vrv validators w1 w2 :
  resolves E block_wrapper w pem vrv validators w1 →
  0 < length validators →
  certificate_missing E block_wrapper pem vrv w1 w2 →
  verify_block E block_wrapper w = (Raises no_check_valid, w2).
Proof.
  intros Hres Hlen Hmiss.
  rewrite (verify_block_resolved _ _ _ _ _ _ _ Hres).
  by rewrite (decide_block_raised _ _ _ _ _ _ _ _ Hlen
                (attempt_certificate_missing _ _ _ _ _ _ Hmiss)).
Qed.

(** X3: [verify_block] returns [False] exactly when the registry is not
    empty and one of the four calls of the [try] suite raised a [KeyError];
    there is no other way to reject a block. *)
Theorem rejects_iff E block_wrapper w :
  (verify_block E block_wrapper w).1 = Returns false ↔
  ∃ st pem vrv validators w1 e w2,
    resolves E block_wrapper w pem vrv validators w1 ∧
    0 < length validators ∧
    raised_at E st block_wrapper pem vrv w1 e w2 ∧
    exc_class e = KeyError.
Proof.
  split.
  - destruct (context_cases E block_wrapper w)
      as [(e & w' & Hc)|(pem & vrv & vs & w1 & Hres)].
    { by rewrite (verify_block_context_fails _ _ _ _ _ Hc). }
    rewrite (verify_block_resolved _ _ _ _ _ _ _ Hres).
    destruct vs as [|v vs]; [by rewrite decide_block_empty|].
    assert (Hlen : 0 < length (v :: vs)) by (simpl; lia).
    destruct (verification_attempt E block_wrapper pem vrv w1)
      as [[fl|e] w2] eqn:Ha.
    + rewrite (decide_block_returned _ _ _ _ _ _ _ _ Hlen Ha).
      by destruct (attempt_inversion _ _ _ _ _ _ _ Ha) as [-> _].
    + rewrite (decide_block_raised _ _ _ _ _ _ _ _ Hlen Ha).
      destruct (attempt_inversion _ _ _ _ _ _ _ Ha) as [[st Hst]|[_ ->]];
        [|done].
      unfold handled. destruct (exc_class e) eqn:Hclass; try done.
      intros _. by exists st, pem, vrv, (v :: vs), w1, e, w2.
  - intros (st & pem & vrv & vs & w1 & e & w2 & Hres & Hlen & Hst & Hclass).
    rewrite (verify_block_raised_at _ _ _ _ _ _ _ _ _ _ Hres Hlen Hst).
    unfold handled. by rewrite Hclass.
Qed.

(** X4: [verify_block] returns [True] exactly in three cases: the registry
    is empty; the registry is not empty and the whole [try] suite returned;
    the registry is not empty and one of the suite's four calls raised a
    [ValueError]. *)
Theorem accepts_iff E block_wrapper w :
  (verify_block E block_wrapper w).1 = Returns true ↔
  (∃ pem vrv validators w1,
     resolves E block_wrapper w pem vrv validators w1 ∧
     length validators = 0) ∨
  (∃ pem vrv validators w1 w2,
     resolves E block_wrapper w pem vrv validators w1 ∧
     0 < length validators ∧
     completes E block_wrapper pem vrv w1 w2) ∨
  (∃ st pem vrv validators w1 e w2,
     resolves E block_wrapper w pem vrv validators w1 ∧
     0 < length validators ∧
     raised_at E st block_wrapper pem vrv w1 e w2 ∧
     exc_class e = ValueError).
Proof.
  split.
  - destruct (context_cases E block_wrapper w)
      as [(e & w' & Hc)|(pem & vrv & vs & w1 & Hres)].
    { by rewrite (verify_block_context_fails _ _ _ _ _ Hc). }
    destruct vs as [|v vs].
    { intros _. left. by exists pem, vrv, [], w1. }
    rewrite (verify_block_resolved _ _ _ _ _ _ _ Hres).
    assert (Hlen : 0 < length (v :: vs)) by (simpl; lia).
    destruct (verification_attempt E block_wrapper pem vrv w1)
      as [[fl|e] w2] eqn:Ha.
    + destruct (attempt_inversion _ _ _ _ _ _ _ Ha) as [_ Hdone].
      intros _. right. left. by exists pem, vrv, (v :: vs), w1, w2.
    + rewrite (decide_block_raised _ _ _ _ _ _ _ _ Hlen Ha).
      destruct (attempt_inversion _ _ _ _ _ _ _ Ha) as [[st Hst]|[_ ->]];
        [|done].
      unfold handled. destruct (exc_class e) eqn:Hclass; try done.
      intros _. right. right. by exists st, pem, vrv, (v :: vs), w1, e, w2.
  - intros [(pem & vrv & vs & w1 & Hres & Hlen)
           |[(pem & vrv & vs & w1 & w2 & Hres & Hlen & Hdone)
            |(st & pem & vrv & vs & w1 & e & w2 & Hres & Hlen & Hst & Hcl)]].
    + rewrite (verify_block_resolved _ _ _ _ _ _ _ Hres).
      destruct vs; [|done]. by rewrite decide_block_empty.
    + by rewrite (full_success_accepts _ _ _ _ _ _ _ _ Hres Hlen Hdone).
    + rewrite (verify_block_raised_at _ _ _ _ _ _ _ _ _ _ Hres Hlen Hst).
      unfold handled. by rewrite Hcl.
Qed.

(** X5: with an empty registry, [verify_block] reads nothing of the
    candidate beyond [previous_block_id] and [state_root_hash]: two
    candidates that agree on these get the same result in the same final
    world, whatever their headers (signer key, consensus payload) hold. *)
Theorem bootstrap_ignores_header
    E block_wrapper block_wrapper' w pem vrv validators w1 :
  previous_block_id block_wrapper' = previous_block_id block_wrapper →
  state_root_hash block_wrapper' = state_root_hash block_wrapper →
  resolves E block_wrapper w pem vrv validators w1 →
  length validators = 0 →
  verify_block E block_wrapper' w = verify_block E block_wrapper w.
Proof.
  intros Hprev Hroot Hres Hlen.
  assert (Hres' : resolves E block_wrapper' w pem vrv validators w1).
  { destruct Hres as (sv & wa & wb & wc & H1 & H2 & H3 & H4).
    exists sv, wa, wb, wc. repeat split; try done.
    unfold spec_state_root in *. by rewrite Hprev, Hroot. }
  rewrite (verify_block_resolved _ _ _ _ _ _ _ Hres).
  rewrite (verify_block_resolved _ _ _ _ _ _ _ Hres').
  destruct validators; [|done]. by rewrite !decide_block_empty.
Qed.

End Outcomes.

(** ** The debug record of the block signer *)

Lemma substring_all n s :
  String.length s ≤ n → String.substring 0 n s = s.
Proof.
  revert n. induction s as [|c s IH]; intros [|n] Hlen; simpl in *;
    try done; try lia.
  f_equal. apply IH. lia.
Qed.

Lemma slice_to_prefix n s :
  ∃ rest, s = slice_to n s +:+ rest ∧
          String.length (slice_to n s) = n `min` String.length s.
Proof.
  unfold slice_to. revert n. induction s as [|c s IH]; intros [|n]; simpl.
  - by exists "".
  - by exists "".
  - by exists (String c s).
  - destruct (IH n) as (rest & Hs & Hlen). exists rest.
    split; [|congruence].
    change (String c s = String c (String.substring 0 n s +:+ rest)).
    congruence.
Qed.

Lemma substring_suffix k n s :
  String.length s ≤ k + n →
  ∃ front, s = front +:+ String.substring k n s ∧
           String.length (String.substring k n s) = String.length s - k.
Proof.
  revert k. induction s as [|c s IH]; intros k Hlen.
  - exists "". by destruct k, n.
  - destruct k as [|k].
    + exists "". rewrite substring_all by (simpl in *; lia). by simpl.
    + simpl in *. destruct (IH k) as (front & Hs & Hl); [lia|].
      exists (String c front). split; [|done].
      change (String c s = String c (front +:+ String.substring k n s)).
      congruence.
Qed.

Lemma slice_last_suffix n s :
  ∃ front, s = front +:+ slice_last n s ∧
           String.length (slice_last n s) = n `min` String.length s.
Proof.
  unfold slice_last.
  destruct (substring_suffix (String.length s - n) n s) as (front & Hs & Hl);
    [lia|].
  exists front. split; [done|]. rewrite Hl. lia.
Qed.

Lemma slices_abbreviate s : abbreviates s (slice_to 8 s) (slice_last 8 s).
Proof.
  destruct (slice_to_prefix 8 s) as (rest & H1 & H2).
  destruct (slice_last_suffix 8 s) as (front & H3 & H4).
  repeat split; eauto.
Qed.

(** X7: the debug call about the block signer never fails, whatever the
    lengths of the validator's ID and PoET public key, and appends exactly
    one record; the record carries the validator's name and, of the ID and
    of the key, only the first eight and the last eight characters (all of
    it when shorter). *)
Theorem debug_block_signer_record {F : Type} (vi : ValidatorInfo)
    (w : World F) :
  ∃ id_head id_tail key_head key_tail,
    debug_block_signer vi w
    = (Returns tt,
       mkWorld (this w)
         (records w ++
          [mkLog DEBUG
             "Block Signer Name=%s, ID=%s...%s, PoET public key=%s...%s"
             [name vi; id_head; id_tail; key_head; key_tail]])) ∧
    abbreviates (id vi) id_head id_tail ∧
    abbreviates (poet_public_key (signup_info vi)) key_head key_tail.
Proof.
  exists (slice_to 8 (id vi)), (slice_last 8 (id vi)),
    (slice_to 8 (poet_public_key (signup_info vi))),
    (slice_last 8 (poet_public_key (signup_info vi))).
  split; [reflexivity|]. split; apply slices_abbreviate.
Qed.

(** ** Construction *)

(** X8: whatever the base class initializer did to the object, once it has
    returned [__init__] leaves the three fields holding the constructor's
    arguments, and a [verify_block] that follows runs against that block
    cache and state view factory. *)
Theorem constructed_verifier {F SV PEM VRV WC : Type}
    (E : Env F SV PEM VRV WC) super_init block_cache state_view_factory
    data_dir block_wrapper (w w1 : World F) :
  super_init block_cache state_view_factory data_dir w = (Returns tt, w1) →
  this (__init__ super_init block_cache state_view_factory data_dir w).2
  = mkVerifier block_cache state_view_factory data_dir ∧
  (__init__ super_init block_cache state_view_factory data_dir;;
   verify_block E block_wrapper) w
  = verify_block E block_wrapper
      (mkWorld (mkVerifier block_cache state_view_factory data_dir)
         (records w1)).
Proof.
  intros Hsuper.
  assert (Hinit :
    __init__ super_init block_cache state_view_factory data_dir w
    = (Returns tt,
       mkWorld (mkVerifier block_cache state_view_factory data_dir)
         (records w1))).
  { unfold __init__. erewrite bind_returns by exact Hsuper. reflexivity. }
  split; [by rewrite Hinit|]. by erewrite bind_returns by exact Hinit.
Qed.

(** * Further runs on the demo ledger *)

Lemma full_success_accepts_witness :
  resolves Demo.env Demo.good Demo.w0 tt [Demo.alice] [Demo.alice] Demo.w0 ∧
  0 < length [Demo.alice] ∧
  completes Demo.env Demo.good tt [Demo.alice] Demo.w0
    (debug_block_signer Demo.alice Demo.w0).2 ∧
  verify_block Demo.env Demo.good Demo.w0
  = (Returns true, (debug_block_signer Demo.alice Demo.w0).2).
Proof.
  assert (Hres : resolves Demo.env Demo.good Demo.w0 tt [Demo.alice]
                   [Demo.alice] Demo.w0)
    by (apply demo_resolves; reflexivity).
  assert (Hlen : 0 < length [Demo.alice]) by (simpl; lia).
  assert (Hdone : completes Demo.env Demo.good tt [Demo.alice] Demo.w0
                    (debug_block_signer Demo.alice Demo.w0).2).
  { exists Demo.alice, Demo.w0, ["{poet-alice:1}"; "{poet-alice:0}"],
      (debug_block_signer Demo.alice Demo.w0).2, "{poet-alice:2}",
      (debug_block_signer Demo.alice Demo.w0).2.
    repeat split; reflexivity. }
  split; [exact Hres|]. split; [exact Hlen|]. split; [exact Hdone|].
  exact (full_success_accepts Demo.env Demo.good Demo.w0 tt [Demo.alice]
           [Demo.alice] Demo.w0 _ Hres Hlen Hdone).
Defined.

Lemma none_certificate_raises_witness :
  resolves Demo.env Demo.blank Demo.w0 tt [Demo.alice] [Demo.alice]
    Demo.w0 ∧
  0 < length [Demo.alice] ∧
  certificate_missing Demo.env Demo.blank tt [Demo.alice] Demo.w0
    (debug_block_signer Demo.alice Demo.w0).2 ∧
  verify_block Demo.env Demo.blank Demo.w0
  = (Raises no_check_valid, (debug_block_signer Demo.alice Demo.w0).2).
Proof.
  assert (Hres : resolves Demo.env Demo.blank Demo.w0 tt [Demo.alice]
                   [Demo.alice] Demo.w0)
    by (apply demo_resolves; reflexivity).
  assert (Hlen : 0 < length [Demo.alice]) by (simpl; lia).
  assert (Hmiss : certificate_missing Demo.env Demo.blank tt [Demo.alice]
                    Demo.w0 (debug_block_signer Demo.alice Demo.w0).2).
  { exists Demo.alice, Demo.w0, ["{poet-alice:1}"; "{poet-alice:0}"],
      (debug_block_signer Demo.alice Demo.w0).2.
    repeat split; reflexivity. }
  split; [exact Hres|]. split; [exact Hlen|]. split; [exact Hmiss|].
  exact (none_certificate_raises Demo.env Demo.blank Demo.w0 tt [Demo.alice]
           [Demo.alice] Demo.w0 _ Hres Hlen Hmiss).
Defined.

Lemma bootstrap_ignores_header_witness :
  previous_block_id Demo2.first_other = previous_block_id Demo.first ∧
  state_root_hash Demo2.first_other = state_root_hash Demo.first ∧
  resolves Demo.env Demo.first Demo.w0 tt [] [] Demo.w0 ∧
  length (@nil ValidatorInfo) = 0 ∧
  verify_block Demo.env Demo2.first_other Demo.w0
  = verify_block Demo.env Demo.first Demo.w0.
Proof.
  assert (Hres : resolves Demo.env Demo.first Demo.w0 tt [] [] Demo.w0).
  { exists "root0", Demo.w0, Demo.w0, Demo.w0. repeat split; reflexivity. }
  split; [reflexivity|]. split; [reflexivity|]. split; [exact Hres|].
  split; [reflexivity|].
  exact (bootstrap_ignores_header Demo.env Demo.first Demo2.first_other
           Demo.w0 tt [] [] Demo.w0 eq_refl eq_refl Hres eq_refl).
Defined.

Lemma constructed_verifier_witness :
  Demo2.super_init Demo.cache tt "/var/lib/sawtooth" Demo2.raw
  = (Returns tt, Demo2.raw) ∧
  this (__init__ Demo2.super_init Demo.cache tt "/var/lib/sawtooth"
          Demo2.raw).2
  = mkVerifier Demo.cache tt "/var/lib/sawtooth" ∧
  (__init__ Demo2.super_init Demo.cache tt "/var/lib/sawtooth";;
   verify_block Demo.env Demo.good) Demo2.raw
  = verify_block Demo.env Demo.good
      (mkWorld (mkVerifier Demo.cache tt "/var/lib/sawtooth")
         (records Demo2.raw)).
Proof.
  split; [reflexivity|].
  exact (constructed_verifier Demo.env Demo2.super_init Demo.cache tt
           "/var/lib/sawtooth" Demo.good Demo2.raw Demo2.raw eq_refl).
Defined.

(** * The sample handed to [check_valid] *)

Section Sample.

Context {StateViewFactory StateView PoetEnclaveModule : Type}.
Context {ValidatorRegistryView WaitCertificate : Type}.

Implicit Types
  (E : Env StateViewFactory StateView PoetEnclaveModule ValidatorRegistryView
         WaitCertificate)
  (w : World StateViewFactory) (e : PyExc) (block_wrapper : BlockWrapper).

(** What [verify_block] answers is decided by what [check_valid] answers on
    the arguments it is handed. *)
Lemma verify_block_check_valid
    E block_wrapper w pem vrv validators w1 c certificates wc key w4 cv :
  resolves E block_wrapper w pem vrv validators w1 →
  0 < length validators →
  handed_to_check_valid E block_wrapper pem vrv w1 c certificates wc key w4 →
  verify_block (with_check_valid E cv) block_wrapper w
  = match cv wc pem certificates key w4 with
    | (Returns _, w5) => (Returns true, w5)
    | (Raises e, w5) => handled e w5
    end.
Proof.
  intros Hres Hlen (vi & wa & w3 & H1 & -> & H2 & H3 & ->).
  assert (Hres' : resolves (with_check_valid E cv) block_wrapper w pem vrv
                    validators w1) by exact Hres.
  rewrite (verify_block_resolved _ _ _ _ _ _ _ Hres').
  destruct (cv wc pem certificates (poet_public_key (signup_info vi)) w4)
    as [[[]|e] w5] eqn:Hcv.
  - assert (Hdone : completes (with_check_valid E cv) block_wrapper pem vrv
                      w1 w5)
      by (by exists vi, wa, certificates, w3, wc, w4).
    by rewrite (decide_block_returned _ _ _ _ _ _ _ _ Hlen
                  (attempt_completes _ _ _ _ _ _ Hdone)).
  - assert (Hraise : raised_at (with_check_valid E cv) Validation
                       block_wrapper pem vrv w1 e w5)
      by (by exists vi, wa, certificates, w3, wc, w4).
    by rewrite (decide_block_raised _ _ _ _ _ _ _ _ Hlen
                  (attempt_raised_at _ _ _ _ _ _ _ _ Hraise)).
Qed.


End Sample.



